(** * ShaderProgram: the shader program lifecycle of [shader_program.cc]

    A shallow embedding of [wvu::ShaderProgram] (src/shader_program.cc) and of
    the free functions of its anonymous namespace, followed by the properties
    of the load / build / link / create operations.

    Conventions of the embedding:
    - a [GLuint] is an unsigned integer, taken as [N]; the code performs no
      arithmetic on handles, it only stores them and compares them with zero;
    - a [std::string*] parameter is an [option string]: [None] is the null
      pointer, [Some s] points to a string holding [s]; a function that may
      write through the pointer returns the pointee afterwards;
    - a method takes the instance ([this]) and returns it afterwards;
    - the file system, as far as [std::ifstream] sees it, is a finite map from
      the paths that open to the content read from them;
    - the build methods also return the list of calls they made to the three
      helper functions, in order. The list is ghost data: the code does not
      compute it, it records which helpers a method invokes and on what. *)

From Stdlib Require Import NArith.
From stdpp Require Import base strings list gmap.

Local Open Scope N_scope.
Local Open Scope string_scope.

Module wvu.

(** ** The anonymous namespace *)

Definition GLuint : Type := N.

(** [constexpr int kNumCharsInfoLog = 512;] *)
Definition kNumCharsInfoLog : N := 512.

(** [enum ShaderType { VERTEX = 0, FRAGMENT = 1 };] *)
Inductive ShaderType : Type :=
| VERTEX
| FRAGMENT.

Definition ShaderType_code (t : ShaderType) : N :=
  match t with
  | VERTEX => 0
  | FRAGMENT => 1
  end.

(** [GLuint CompileShader(const std::string& shader_src,
                         const ShaderType shader_type,
                         std::string* info_log)]: the body is [return 0;].
    The result pairs the returned id with the pointee of [info_log]
    afterwards. *)
Definition CompileShader (shader_src : string) (shader_type : ShaderType)
    (info_log : option string) : GLuint * option string :=
  (0, info_log).

(** [GLuint CreateShaderProgram(const GLuint vertex_shader,
                               const GLuint fragment_shader,
                               std::string* info_log)]: the body is
    [return 0;]. *)
Definition CreateShaderProgram (vertex_shader fragment_shader : GLuint)
    (info_log : option string) : GLuint * option string :=
  (0, info_log).

(** [void ReleaseShaderResources(const GLuint, const GLuint)]: the body is
    empty. *)
Definition ReleaseShaderResources (vertex_shader fragmnet_shader : GLuint)
    : unit :=
  tt.

(** What [std::ifstream in(filepath)] finds: [fs !! filepath = Some content]
    when the stream opens and [in.rdbuf()] yields [content], [None] when
    [in.is_open()] is false. *)
Abbreviation FileSystem := (gmap string string).

(** [bool LoadShaderFromFile(const std::string& filepath,
                             std::string* loaded_file)].
    Fails when the stream is not open or the sink is null; otherwise the
    whole content is assigned to the sink. *)
Definition LoadShaderFromFile (fs : FileSystem) (filepath : string)
    (loaded_file : option string) : bool * option string :=
  match fs !! filepath, loaded_file with
  | Some content, Some _ => (true, Some content)
  | _, _ => (false, loaded_file)
  end.

(** ** The instance *)

(** The data members that [shader_program.cc] reads and writes. *)
Record ShaderProgram : Type := mkShaderProgram {
  vertex_shader_src_ : string;
  fragment_shader_src_ : string;
  vertex_shader_ : GLuint;
  fragment_shader_ : GLuint;
  shader_program_id_ : GLuint;
  created_ : bool
}.

Definition set_vertex_shader_src_ (v : string) (this : ShaderProgram)
    : ShaderProgram :=
  mkShaderProgram v (fragment_shader_src_ this) (vertex_shader_ this)
    (fragment_shader_ this) (shader_program_id_ this) (created_ this).

Definition set_fragment_shader_src_ (v : string) (this : ShaderProgram)
    : ShaderProgram :=
  mkShaderProgram (vertex_shader_src_ this) v (vertex_shader_ this)
    (fragment_shader_ this) (shader_program_id_ this) (created_ this).

Definition set_vertex_shader_ (v : GLuint) (this : ShaderProgram)
    : ShaderProgram :=
  mkShaderProgram (vertex_shader_src_ this) (fragment_shader_src_ this) v
    (fragment_shader_ this) (shader_program_id_ this) (created_ this).

Definition set_fragment_shader_ (v : GLuint) (this : ShaderProgram)
    : ShaderProgram :=
  mkShaderProgram (vertex_shader_src_ this) (fragment_shader_src_ this)
    (vertex_shader_ this) v (shader_program_id_ this) (created_ this).

Definition set_shader_program_id_ (v : GLuint) (this : ShaderProgram)
    : ShaderProgram :=
  mkShaderProgram (vertex_shader_src_ this) (fragment_shader_src_ this)
    (vertex_shader_ this) (fragment_shader_ this) v (created_ this).

(** Modelled from the spec: the constructor of [ShaderProgram], declared in
    shader_program.h, which is not among the sources. The spec's data model
    has the stage handles unset (zero), the program handle zero ("not
    created") and [created] false before any build; the sources are empty
    until loaded. *)
Definition ShaderProgram_new : ShaderProgram :=
  mkShaderProgram "" "" 0 0 0 false.

(** Modelled from the spec: the accessor [shader_program_id()], declared in
    shader_program.h: "accessor returning programHandle". *)
Definition shader_program_id (this : ShaderProgram) : GLuint :=
  shader_program_id_ this.

(** Modelled from the spec: [Use()], declared in shader_program.h and called
    on a [const ShaderProgram&] by the render loop: it activates the program
    on the pipeline and changes no data member. *)
Definition Use (this : ShaderProgram) : ShaderProgram :=
  this.

(** ** Source loading *)

Definition LoadVertexShaderFromString (vertex_shader_source : string)
    (this : ShaderProgram) : bool * ShaderProgram :=
  (true, set_vertex_shader_src_ vertex_shader_source this).

Definition LoadFragmentShaderFromString (fragment_shader_source : string)
    (this : ShaderProgram) : bool * ShaderProgram :=
  (true, set_fragment_shader_src_ fragment_shader_source this).

(** The sink is [&vertex_shader_src_]: a pointer to the member, never null.
    Whatever the helper leaves in the pointee is the member afterwards. *)
Definition LoadVertexShaderFromFile (fs : FileSystem)
    (vertex_shader_path : string) (this : ShaderProgram)
    : bool * ShaderProgram :=
  let '(ok, sink) :=
    LoadShaderFromFile fs vertex_shader_path (Some (vertex_shader_src_ this)) in
  (ok, set_vertex_shader_src_ (default (vertex_shader_src_ this) sink) this).

Definition LoadFragmentShaderFromFile (fs : FileSystem)
    (fragment_shader_path : string) (this : ShaderProgram)
    : bool * ShaderProgram :=
  let '(ok, sink) :=
    LoadShaderFromFile fs fragment_shader_path
      (Some (fragment_shader_src_ this)) in
  (ok, set_fragment_shader_src_ (default (fragment_shader_src_ this) sink) this).

(** ** Building *)

(** A call to one of the three helpers, with its value arguments. *)
Inductive Call : Type :=
| CompileShaderCall (shader_src : string) (shader_type : ShaderType)
| CreateShaderProgramCall (vertex_shader fragment_shader : GLuint)
| ReleaseShaderResourcesCall (vertex_shader fragment_shader : GLuint).

(** What a build method leaves behind: the returned [bool], the instance,
    the pointee of the log pointer, and the helper calls made. *)
Record Outcome : Type := mkOutcome {
  ret : bool;
  self : ShaderProgram;
  log : option string;
  calls : list Call
}.

(** [bool ShaderProgram::Create(std::string* error_info_log)]:
    [if (created_) return true; return false;]. *)
Definition Create (error_info_log : option string) (this : ShaderProgram)
    : Outcome :=
  if created_ this
  then mkOutcome true this error_info_log []
  else mkOutcome false this error_info_log [].

Definition BuildVertexShader (info_log : option string) (this : ShaderProgram)
    : Outcome :=
  let '(id, info_log') :=
    CompileShader (vertex_shader_src_ this) VERTEX info_log in
  let this' := set_vertex_shader_ id this in
  mkOutcome (negb (N.eqb (vertex_shader_ this') 0)) this' info_log'
    [CompileShaderCall (vertex_shader_src_ this) VERTEX].

Definition BuildFragmentShader (info_log : option string)
    (this : ShaderProgram) : Outcome :=
  let '(id, info_log') :=
    CompileShader (fragment_shader_src_ this) FRAGMENT info_log in
  let this' := set_fragment_shader_ id this in
  mkOutcome (negb (N.eqb (fragment_shader_ this') 0)) this' info_log'
    [CompileShaderCall (fragment_shader_src_ this) FRAGMENT].

Definition LinkProgram (info_log : option string) (this : ShaderProgram)
    : Outcome :=
  let '(id, info_log') :=
    CreateShaderProgram (vertex_shader_ this) (fragment_shader_ this)
      info_log in
  let this' := set_shader_program_id_ id this in
  let 'tt :=
    ReleaseShaderResources (vertex_shader_ this') (fragment_shader_ this') in
  mkOutcome (negb (N.eqb (shader_program_id_ this') 0)) this' info_log'
    [CreateShaderProgramCall (vertex_shader_ this) (fragment_shader_ this);
     ReleaseShaderResourcesCall (vertex_shader_ this')
       (fragment_shader_ this')].

(** ** The operations as a transition system *)

(** One call on an instance, with its arguments. A load from a file carries
    the file system it runs against, since files may change between calls. *)
Inductive Op : Type :=
| OpLoadVertexShaderFromString (vertex_shader_source : string)
| OpLoadFragmentShaderFromString (fragment_shader_source : string)
| OpLoadVertexShaderFromFile (fs : FileSystem) (vertex_shader_path : string)
| OpLoadFragmentShaderFromFile (fs : FileSystem) (fragment_shader_path : string)
| OpCreate (error_info_log : option string)
| OpBuildVertexShader (info_log : option string)
| OpBuildFragmentShader (info_log : option string)
| OpLinkProgram (info_log : option string)
| Op_shader_program_id
| OpUse.

(** The instance after one call. *)
Definition step (op : Op) (this : ShaderProgram) : ShaderProgram :=
  match op with
  | OpLoadVertexShaderFromString src => (LoadVertexShaderFromString src this).2
  | OpLoadFragmentShaderFromString src =>
      (LoadFragmentShaderFromString src this).2
  | OpLoadVertexShaderFromFile fs path =>
      (LoadVertexShaderFromFile fs path this).2
  | OpLoadFragmentShaderFromFile fs path =>
      (LoadFragmentShaderFromFile fs path this).2
  | OpCreate l => self (Create l this)
  | OpBuildVertexShader l => self (BuildVertexShader l this)
  | OpBuildFragmentShader l => self (BuildFragmentShader l this)
  | OpLinkProgram l => self (LinkProgram l this)
  | Op_shader_program_id => this
  | OpUse => Use this
  end.

(** The instance after a sequence of calls, first call first. *)
Definition run (ops : list Op) (this : ShaderProgram) : ShaderProgram :=
  foldl (fun s op => step op s) this ops.

Definition is_LinkProgram (op : Op) : bool :=
  match op with
  | OpLinkProgram _ => true
  | _ => false
  end.

(** The spec's invariant: [created == true] implies [programHandle != 0]. *)
Definition created_invariant (this : ShaderProgram) : Prop :=
  created_ this = true -> shader_program_id_ this <> 0.

Definition created_invariantb (this : ShaderProgram) : bool :=
  implb (created_ this) (negb (N.eqb (shader_program_id_ this) 0)).

(** Everything but the vertex source agrees. *)
Definition same_but_vertex_src (s s' : ShaderProgram) : Prop :=
  fragment_shader_src_ s' = fragment_shader_src_ s /\
  vertex_shader_ s' = vertex_shader_ s /\
  fragment_shader_ s' = fragment_shader_ s /\
  shader_program_id_ s' = shader_program_id_ s /\
  created_ s' = created_ s.

(** Everything but the fragment source agrees. *)
Definition same_but_fragment_src (s s' : ShaderProgram) : Prop :=
  vertex_shader_src_ s' = vertex_shader_src_ s /\
  vertex_shader_ s' = vertex_shader_ s /\
  fragment_shader_ s' = fragment_shader_ s /\
  shader_program_id_ s' = shader_program_id_ s /\
  created_ s' = created_ s.

End wvu.

(** ** The fixtures of assignment_tests.cc *)

Module fixtures.
Import wvu.

Definition vertex_shader_src : string :=
  "#version 330 core
layout (location = 0) in vec3 position;

void main() {
gl_Position = vec4(position.x, position.y, position.z, 1.0f);
}
".

Definition fragment_shader_src : string :=
  "#version 330 core
out vec4 color;
void main() {
color = vec4(1.0f, 0.5f, 0.2f, 1.0f);
}
".

(** [TEST(ShaderProgram, CreateProgramFromInvalidShaderSources)]: both bad
    sources extend the vertex fixture. *)
Definition bad_vertex_shader : string :=
  vertex_shader_src +:+ "asdasdjqw;rjdekl".

Definition bad_fragment_shader : string :=
  vertex_shader_src +:+ "asdasdjqw;jdekl".

(** A default-constructed instance after the two loads of a test. *)
Definition loaded (vertex fragment : string) : ShaderProgram :=
  (LoadFragmentShaderFromString fragment
     (LoadVertexShaderFromString vertex ShaderProgram_new).2).2.

Definition valid_instance : ShaderProgram :=
  loaded vertex_shader_src fragment_shader_src.

Definition invalid_instance : ShaderProgram :=
  loaded bad_vertex_shader bad_fragment_shader.

(** An instance on which a program has been built: [created_] set and a
    nonzero program id. *)
Definition built_instance : ShaderProgram :=
  mkShaderProgram vertex_shader_src fragment_shader_src 0 0 7 true.

(** A file system with the vertex fixture stored under one path. *)
Definition one_file : FileSystem :=
  {[ "triangle.vert" := vertex_shader_src ]}.

End fixtures.

(** ** What a sequence of calls leaves behind *)

Module history.
Import wvu.

(** The text a call stores as the vertex source, when it stores one: the
    argument of a load from a string, the content of the file of a load from
    a path that opens. *)
Definition vertex_text (op : Op) : option string :=
  match op with
  | OpLoadVertexShaderFromString src => Some src
  | OpLoadVertexShaderFromFile fs path => fs !! path
  | _ => None
  end.

(** The same for the fragment source. *)
Definition fragment_text (op : Op) : option string :=
  match op with
  | OpLoadFragmentShaderFromString src => Some src
  | OpLoadFragmentShaderFromFile fs path => fs !! path
  | _ => None
  end.

Definition is_BuildVertexShader (op : Op) : bool :=
  match op with
  | OpBuildVertexShader _ => true
  | _ => false
  end.

Definition is_BuildFragmentShader (op : Op) : bool :=
  match op with
  | OpBuildFragmentShader _ => true
  | _ => false
  end.

End history.

(** ** draw_triangle.cc *)

Module draw_triangle.
Import wvu.

(** [#define GLFW_PRESS 1] and [#define GLFW_KEY_ESCAPE 256] of glfw3.h. *)
Definition GLFW_PRESS : Z := 1.
Definition GLFW_KEY_ESCAPE : Z := 256.

(** The arguments GLFW passes to the key callback, the window apart. *)
Record KeyEvent : Type := mkKeyEvent {
  key : Z;
  scancode : Z;
  action : Z;
  mods : Z
}.

(** [static void KeyCallback(GLFWwindow* window, int key, int scancode,
                             int action, int mods)].
    The state of the window that the callback touches is its close flag:
    [glfwSetWindowShouldClose(window, GL_TRUE)] sets it. *)
Definition KeyCallback (should_close : bool) (e : KeyEvent) : bool :=
  if (key e =? GLFW_KEY_ESCAPE)%Z && (action e =? GLFW_PRESS)%Z
  then true
  else should_close.

Definition is_escape_press (e : KeyEvent) : bool :=
  (key e =? GLFW_KEY_ESCAPE)%Z && (action e =? GLFW_PRESS)%Z.

(** The close flag after GLFW delivered the events, first event first. *)
Definition deliver (events : list KeyEvent) (should_close : bool) : bool :=
  foldl KeyCallback should_close events.

(** What [main] is told by the libraries it initialises: [glfwInit()] is
    nonzero, [glfwCreateWindow] returns a window, [glewInit()] is
    [GLEW_OK]. *)
Record Platform : Type := mkPlatform {
  glfwInit_ok : bool;
  window_created : bool;
  glewInit_ok : bool
}.

(** Where [main] gets to: a [return] before the render loop, or the loop,
    entered with the shader program as it is then. *)
Inductive Reached : Type :=
| Returned (code : Z)
| RenderLoop (shader_program : ShaderProgram).

(** [main] up to its render loop: where it gets to, what it wrote to
    [std::cout], and whether it called [glfwTerminate()] on the way. What
    goes to [std::cerr] is left out: GLFW writes there too, through
    [ErrorCallback]. [constructed] is the instance that the default
    constructor of shader_program.h yields. *)
Record MainRun : Type := mkMainRun {
  reached : Reached;
  cout : string;
  glfwTerminate_called : bool
}.

Definition main (p : Platform) (constructed : ShaderProgram) : MainRun :=
  if negb (glfwInit_ok p) then mkMainRun (Returned (-1)) "" false
  else if negb (window_created p) then mkMainRun (Returned (-1)) "" true
  else if negb (glewInit_ok p) then mkMainRun (Returned (-1)) "" true
  else
    let shader_program := constructed in
    let shader_program :=
      (LoadVertexShaderFromString fixtures.vertex_shader_src
         shader_program).2 in
    let shader_program :=
      (LoadFragmentShaderFromString fixtures.fragment_shader_src
         shader_program).2 in
    let error_info_log := "" in
    let r := Create (Some error_info_log) shader_program in
    let error_info_log := default error_info_log (log r) in
    let shader_program := self r in
    let out :=
      if negb (ret r)
      then "ERROR: " +:+ error_info_log +:+ "
"
      else "" in
    if N.eqb (shader_program_id shader_program) 0
    then mkMainRun (Returned (-1)) out false
    else mkMainRun (RenderLoop shader_program) out false.

End draw_triangle.

Import wvu.

(** ** Basic facts about the record and the helpers *)

Section Setters.
Variable this : ShaderProgram.

Lemma set_vertex_shader_src__same :
  set_vertex_shader_src_ (vertex_shader_src_ this) this = this.
Proof. by destruct this. Qed.

Lemma set_fragment_shader_src__same :
  set_fragment_shader_src_ (fragment_shader_src_ this) this = this.
Proof. by destruct this. Qed.

End Setters.

Lemma created_invariantb_spec (this : ShaderProgram) :
  created_invariantb this = true <-> created_invariant this.
Proof.
  unfold created_invariantb, created_invariant.
  destruct (created_ this); simpl.
  - rewrite negb_true_iff, N.eqb_neq. split; [intros H _; exact H | auto].
  - split; [intros _ H; discriminate H | reflexivity].
Qed.

(** A handle is unsigned: nonzero and positive are the same. *)
Lemma GLuint_nonzero_pos (h : GLuint) : h <> 0 <-> 0 < h.
Proof. unfold GLuint in *. lia. Qed.

Lemma nonzero_test (h : GLuint) : negb (N.eqb h 0) = true <-> h <> 0.
Proof. by rewrite negb_true_iff, N.eqb_neq. Qed.

Lemma zero_test (h : GLuint) : negb (N.eqb h 0) = false <-> h = 0.
Proof. by rewrite negb_false_iff, N.eqb_eq. Qed.

(** The two helpers that return an id return zero on every input, so the
    two builds and the link return false on every instance. *)
Lemma helpers_return_zero (src : string) (t : ShaderType) (v f : GLuint)
    (info_log : option string) :
  CompileShader src t info_log = (0, info_log) /\
  CreateShaderProgram v f info_log = (0, info_log).
Proof. split; reflexivity. Qed.

Lemma builds_and_link_return_false (info_log : option string)
    (this : ShaderProgram) :
  ret (BuildVertexShader info_log this) = false /\
  ret (BuildFragmentShader info_log this) = false /\
  ret (LinkProgram info_log this) = false.
Proof. repeat split. Qed.

(** The sink of [LoadShaderFromFile], when it is not null. *)
Lemma LoadShaderFromFile_sink fs filepath (old : string) :
  LoadShaderFromFile fs filepath (Some old) =
    match fs !! filepath with
    | Some content => (true, Some content)
    | None => (false, Some old)
    end.
Proof. unfold LoadShaderFromFile. by destruct (fs !! filepath). Qed.

(** A null sink makes the helper fail even when the file opens. *)
Lemma LoadShaderFromFile_null fs filepath :
  LoadShaderFromFile fs filepath None = (false, None).
Proof. unfold LoadShaderFromFile. by destruct (fs !! filepath). Qed.

(** No operation writes [created_]. *)
Lemma step_created_ (op : Op) (this : ShaderProgram) :
  created_ (step op this) = created_ this.
Proof.
  destruct op as [src|src|fs path|fs path|l|l|l|l| |]; simpl; try reflexivity.
  - unfold LoadVertexShaderFromFile.
    rewrite LoadShaderFromFile_sink. by destruct (fs !! path).
  - unfold LoadFragmentShaderFromFile.
    rewrite LoadShaderFromFile_sink. by destruct (fs !! path).
  - unfold Create. by destruct (created_ this) eqn:E.
Qed.

(** Only [LinkProgram] writes [shader_program_id_]. *)
Lemma step_shader_program_id_ (op : Op) (this : ShaderProgram) :
  is_LinkProgram op = false ->
  shader_program_id_ (step op this) = shader_program_id_ this.
Proof.
  destruct op as [src|src|fs path|fs path|l|l|l|l| |]; simpl; intros Hop;
    try discriminate Hop; try reflexivity.
  - unfold LoadVertexShaderFromFile.
    rewrite LoadShaderFromFile_sink. by destruct (fs !! path).
  - unfold LoadFragmentShaderFromFile.
    rewrite LoadShaderFromFile_sink. by destruct (fs !! path).
  - unfold Create. by destruct (created_ this) eqn:E.
Qed.

Lemma run_created_ (ops : list Op) (this : ShaderProgram) :
  created_ (run ops this) = created_ this.
Proof.
  revert this. induction ops as [|op ops IH]; intros this; [reflexivity|].
  change (run (op :: ops) this) with (run ops (step op this)).
  by rewrite IH, step_created_.
Qed.

(** ** Create *)

(** C1 (the code departs from the claim): on a default-constructed instance
    loaded with the valid vertex and fragment fixtures of the tests, which
    the tests expect to build, [Create] returns false, the program id read
    afterwards is zero, the caller's empty log is left as it was and no helper
    was called. *)
Theorem Create_valid_fixture_returns_false :
  let r := Create (Some "") fixtures.valid_instance in
  ret r = false /\
  shader_program_id (self r) = 0 /\
  log r = Some "" /\
  calls r = [].
Proof. repeat split. Qed.

(** C2 (the code departs from the claim): on a default-constructed instance
    loaded with the two bad sources of the tests, [Create] returns false and
    leaves [created_] false and the program id zero, but it writes nothing to
    the caller's log: a log that was empty is still empty (length zero), and
    no compile was attempted. *)
Theorem Create_invalid_fixture_leaves_log_empty :
  let r := Create (Some "") fixtures.invalid_instance in
  ret r = false /\
  created_ (self r) = false /\
  shader_program_id (self r) = 0 /\
  log r = Some "" /\
  String.length (default "" (log r)) = 0%nat /\
  calls r = [].
Proof. repeat split. Qed.

(** C3 (the code departs from the claim): [Create] never reaches a link. On
    every instance and every log pointer it calls no helper (no compile, no
    link, no release), leaves every data member and the log as they were,
    and returns the value of [created_]; and [LinkProgram], were it called
    directly, does not write [created_] either. *)
Theorem Create_never_links (error_info_log : option string)
    (this : ShaderProgram) :
  calls (Create error_info_log this) = [] /\
  self (Create error_info_log this) = this /\
  log (Create error_info_log this) = error_info_log /\
  ret (Create error_info_log this) = created_ this /\
  created_ (self (LinkProgram error_info_log this)) = created_ this.
Proof.
  unfold Create. destruct (created_ this) eqn:E; repeat split; exact E.
Qed.

(** C4: if a call of [Create] on an instance returned true, a second call on
    the instance it left also returns true, leaves the instance (and so the
    value of [shader_program_id()]) unchanged, and makes no helper call: no
    build is attempted again. *)
Theorem Create_idempotent_after_success (log1 log2 : option string)
    (this : ShaderProgram) :
  ret (Create log1 this) = true ->
  let first := Create log1 this in
  let second := Create log2 (self first) in
  ret second = true /\
  shader_program_id (self second) = shader_program_id (self first) /\
  self second = self first /\
  calls second = [].
Proof.
  unfold Create. destruct (created_ this) eqn:E; simpl; [|discriminate].
  intros _. rewrite E. repeat split.
Qed.

(** The theorem at an instance on which [created_] is set. *)
Lemma Create_idempotent_after_success_witness :
  ret (Create (Some "") fixtures.built_instance) = true /\
  ret (Create (Some "") (self (Create (Some "") fixtures.built_instance)))
    = true /\
  shader_program_id
    (self (Create (Some "") (self (Create (Some "") fixtures.built_instance))))
    = 7.
Proof.
  split; [reflexivity|].
  destruct (Create_idempotent_after_success (Some "") (Some "")
              fixtures.built_instance eq_refl) as (H1 & H2 & _).
  split; [exact H1|]. rewrite H2. reflexivity.
Defined.

(** ** The invariant *)

(** C5, as stated, fails: on an instance with [created_] true and program id
    7 the invariant holds, and after [LinkProgram] the id is zero while
    [created_] is still true, so the invariant is broken. *)
Lemma LinkProgram_breaks_created_invariant :
  created_invariant fixtures.built_instance /\
  ~ created_invariant (step (OpLinkProgram (Some "")) fixtures.built_instance).
Proof.
  split.
  - intros _. discriminate.
  - intros H. apply H; reflexivity.
Qed.

(** C5, amended: the invariant holds in the initial state and in every state
    reached from it by any sequence of operations (loads, [Create], the two
    builds, [LinkProgram], the accessors); every operation other than
    [LinkProgram] preserves it from an arbitrary state, and [LinkProgram]
    preserves it from every state in which [created_] is false. *)
Theorem created_invariant_amended :
  created_invariant ShaderProgram_new /\
  (forall ops : list Op, created_invariant (run ops ShaderProgram_new)) /\
  (forall (op : Op) (this : ShaderProgram),
      is_LinkProgram op = false ->
      created_invariant this -> created_invariant (step op this)) /\
  (forall (info_log : option string) (this : ShaderProgram),
      created_ this = false ->
      created_invariant (step (OpLinkProgram info_log) this)).
Proof.
  split; [intros H; discriminate H|].
  split; [|split].
  - intros ops H. rewrite run_created_ in H. discriminate H.
  - intros op this Hop Hinv. unfold created_invariant.
    rewrite step_created_, step_shader_program_id_ by exact Hop. exact Hinv.
  - intros info_log this Hc. unfold created_invariant.
    rewrite step_created_, Hc. discriminate.
Qed.

(** The two preservation clauses at concrete instances. *)
Lemma created_invariant_amended_witness :
  created_invariant
    (step (OpLoadVertexShaderFromString "void main() {}")
       fixtures.built_instance) /\
  created_invariant (step (OpLinkProgram (Some "")) fixtures.valid_instance).
Proof.
  destruct created_invariant_amended as (_ & _ & Hstep & Hlink).
  split.
  - apply Hstep; [reflexivity|]. intros _. discriminate.
  - apply Hlink. reflexivity.
Defined.

(** ** Loading from a string *)

(** C6, as stated, fails: on an instance with [created_] true,
    [LoadVertexShaderFromString] and [LoadFragmentShaderFromString] return
    true and replace the stored source. *)
Lemma LoadFromString_on_built_instance_mutates :
  let this := fixtures.built_instance in
  let v := LoadVertexShaderFromString "void main() {}" this in
  let f := LoadFragmentShaderFromString "void main() {}" this in
  created_ this = true /\
  ~ (v.1 = false /\ vertex_shader_src_ v.2 = vertex_shader_src_ this) /\
  ~ (f.1 = false /\ fragment_shader_src_ f.2 = fragment_shader_src_ this) /\
  vertex_shader_src_ v.2 <> vertex_shader_src_ this /\
  fragment_shader_src_ f.2 <> fragment_shader_src_ this.
Proof.
  repeat split; simpl; try (intros [H _]; discriminate H); discriminate.
Qed.

(** C6, amended: for every text and every instance, whatever the value of
    [created_], [LoadVertexShaderFromString] (resp.
    [LoadFragmentShaderFromString]) returns true and leaves the text,
    verbatim, as that stage's source. *)
Theorem LoadFromString_always_stores (source : string)
    (this : ShaderProgram) :
  (LoadVertexShaderFromString source this).1 = true /\
  vertex_shader_src_ (LoadVertexShaderFromString source this).2 = source /\
  (LoadFragmentShaderFromString source this).1 = true /\
  fragment_shader_src_ (LoadFragmentShaderFromString source this).2 = source.
Proof. repeat split. Qed.

(** ** Loading from a file *)

(** C7: when the path does not open, [LoadVertexShaderFromFile] (resp.
    [LoadFragmentShaderFromFile]) returns false and leaves the instance as it
    was: the source read back afterwards is the one loaded before; when the
    path opens, it returns true and the source of that stage read back
    afterwards is the whole content of the file, the rest of the instance
    being as before. *)
Theorem LoadFromFile_fails_or_stores (fs : FileSystem) (path : string)
    (this : ShaderProgram) :
  (fs !! path = None ->
     (LoadVertexShaderFromFile fs path this).1 = false /\
     vertex_shader_src_ (LoadVertexShaderFromFile fs path this).2 =
       vertex_shader_src_ this /\
     (LoadFragmentShaderFromFile fs path this).1 = false /\
     fragment_shader_src_ (LoadFragmentShaderFromFile fs path this).2 =
       fragment_shader_src_ this /\
     LoadVertexShaderFromFile fs path this = (false, this) /\
     LoadFragmentShaderFromFile fs path this = (false, this)) /\
  (forall content : string,
     fs !! path = Some content ->
     (LoadVertexShaderFromFile fs path this).1 = true /\
     vertex_shader_src_ (LoadVertexShaderFromFile fs path this).2 =
       content /\
     (LoadFragmentShaderFromFile fs path this).1 = true /\
     fragment_shader_src_ (LoadFragmentShaderFromFile fs path this).2 =
       content /\
     LoadVertexShaderFromFile fs path this =
       (true, set_vertex_shader_src_ content this) /\
     LoadFragmentShaderFromFile fs path this =
       (true, set_fragment_shader_src_ content this)).
Proof.
  unfold LoadVertexShaderFromFile, LoadFragmentShaderFromFile.
  rewrite !LoadShaderFromFile_sink. split.
  - intros ->. simpl.
    rewrite set_vertex_shader_src__same, set_fragment_shader_src__same.
    repeat split.
  - intros content ->. simpl. repeat split.
Qed.

(** A path that does not open and one that does, on an instance that holds
    other sources: the old source is read back after the first load, the
    content of the file after the second. *)
Lemma LoadFromFile_fails_or_stores_witness :
  let this := mkShaderProgram "old vertex" "old fragment" 0 0 0 false in
  ((LoadVertexShaderFromFile fixtures.one_file "missing.vert" this).1
     = false /\
   vertex_shader_src_
     (LoadVertexShaderFromFile fixtures.one_file "missing.vert" this).2
     = "old vertex") /\
  ((LoadVertexShaderFromFile fixtures.one_file "triangle.vert" this).1
     = true /\
   vertex_shader_src_
     (LoadVertexShaderFromFile fixtures.one_file "triangle.vert" this).2
     = fixtures.vertex_shader_src) /\
  ((LoadFragmentShaderFromFile fixtures.one_file "triangle.vert" this).1
     = true /\
   fragment_shader_src_
     (LoadFragmentShaderFromFile fixtures.one_file "triangle.vert" this).2
     = fixtures.vertex_shader_src).
Proof.
  intros this.
  destruct (LoadFromFile_fails_or_stores fixtures.one_file "missing.vert"
              this) as [Hmissing _].
  destruct (LoadFromFile_fails_or_stores fixtures.one_file "triangle.vert"
              this) as [_ Hopens].
  destruct Hmissing as (Hv1 & Hv2 & _); [vm_compute; reflexivity|].
  destruct (Hopens fixtures.vertex_shader_src) as (Ho1 & Ho2 & Ho3 & Ho4 & _);
    [vm_compute; reflexivity|].
  repeat split; assumption.
Defined.

(** ** Building the stages *)

(** C8 (the code departs from the claim): [BuildVertexShader] (resp.
    [BuildFragmentShader]) does store the id returned by [CompileShader] for
    that stage's source in that stage's handle, where it is read back
    afterwards, and returns true exactly when the stored handle is nonzero
    (positive, a handle being unsigned). But [CompileShader] returns the zero
    handle for every source, the valid fixtures of the tests included, never
    a positive one: on every instance the handle read back after a build is
    zero, whatever it was before, and the build returns false. *)
Theorem Build_stores_compile_result (info_log : option string)
    (this : ShaderProgram) :
  let v := BuildVertexShader info_log this in
  let f := BuildFragmentShader info_log this in
  (vertex_shader_ (self v) =
     (CompileShader (vertex_shader_src_ this) VERTEX info_log).1 /\
   self v =
     set_vertex_shader_
       (CompileShader (vertex_shader_src_ this) VERTEX info_log).1 this /\
   calls v = [CompileShaderCall (vertex_shader_src_ this) VERTEX] /\
   (ret v = true <-> vertex_shader_ (self v) <> 0) /\
   (ret v = true <-> 0 < vertex_shader_ (self v)) /\
   (ret v = false <-> vertex_shader_ (self v) = 0) /\
   (CompileShader (vertex_shader_src_ this) VERTEX info_log).1 = 0 /\
   vertex_shader_ (self v) = 0 /\
   ret v = false) /\
  (fragment_shader_ (self f) =
     (CompileShader (fragment_shader_src_ this) FRAGMENT info_log).1 /\
   self f =
     set_fragment_shader_
       (CompileShader (fragment_shader_src_ this) FRAGMENT info_log).1 this /\
   calls f = [CompileShaderCall (fragment_shader_src_ this) FRAGMENT] /\
   (ret f = true <-> fragment_shader_ (self f) <> 0) /\
   (ret f = true <-> 0 < fragment_shader_ (self f)) /\
   (ret f = false <-> fragment_shader_ (self f) = 0) /\
   (CompileShader (fragment_shader_src_ this) FRAGMENT info_log).1 = 0 /\
   fragment_shader_ (self f) = 0 /\
   ret f = false) /\
  (CompileShader fixtures.vertex_shader_src VERTEX (Some "")).1 = 0 /\
  (CompileShader fixtures.fragment_shader_src FRAGMENT (Some "")).1 = 0 /\
  ret (BuildVertexShader (Some "") fixtures.valid_instance) = false /\
  ret (BuildFragmentShader (Some "") fixtures.valid_instance) = false.
Proof.
  intros v f. subst v f.
  unfold BuildVertexShader, BuildFragmentShader, CompileShader.
  cbn [self ret calls fst vertex_shader_ fragment_shader_
       set_vertex_shader_ set_fragment_shader_ N.eqb negb].
  repeat split; first [done | lia].
Qed.

(** ** Frame of the loads *)

(** C9: a load of a vertex source, from a string or from a file, whether it
    succeeds or not, leaves the fragment source, both stage handles, the
    program id and [created_] as they were; a load of a fragment source
    leaves the vertex source and the same four members as they were. *)
Theorem Load_frame (source : string) (fs : FileSystem) (path : string)
    (this : ShaderProgram) :
  same_but_vertex_src this (LoadVertexShaderFromString source this).2 /\
  same_but_vertex_src this (LoadVertexShaderFromFile fs path this).2 /\
  same_but_fragment_src this (LoadFragmentShaderFromString source this).2 /\
  same_but_fragment_src this (LoadFragmentShaderFromFile fs path this).2.
Proof.
  unfold LoadVertexShaderFromFile, LoadFragmentShaderFromFile.
  rewrite !LoadShaderFromFile_sink.
  destruct (fs !! path); repeat split.
Qed.

(** ** Linking *)

(** C10: [LinkProgram] stores the id returned by [CreateShaderProgram] in
    [shader_program_id_] whatever was there, so when it returns false the id
    is zero even if it was nonzero before; it then calls
    [ReleaseShaderResources] on the two stage handles, whether the id is zero
    or not; the sources, the stage handles and [created_] are as before. *)
Theorem LinkProgram_overwrites_and_releases (info_log : option string)
    (this : ShaderProgram) :
  let r := LinkProgram info_log this in
  self r =
    set_shader_program_id_
      (CreateShaderProgram (vertex_shader_ this) (fragment_shader_ this)
         info_log).1 this /\
  (ret r = true <-> shader_program_id_ (self r) <> 0) /\
  (ret r = false -> shader_program_id_ (self r) = 0) /\
  calls r =
    [CreateShaderProgramCall (vertex_shader_ this) (fragment_shader_ this);
     ReleaseShaderResourcesCall (vertex_shader_ this)
       (fragment_shader_ this)] /\
  vertex_shader_src_ (self r) = vertex_shader_src_ this /\
  fragment_shader_src_ (self r) = fragment_shader_src_ this /\
  vertex_shader_ (self r) = vertex_shader_ this /\
  fragment_shader_ (self r) = fragment_shader_ this /\
  created_ (self r) = created_ this.
Proof.
  intros r. subst r. unfold LinkProgram.
  destruct (CreateShaderProgram (vertex_shader_ this) (fragment_shader_ this)
              info_log) as [id log'].
  destruct (ReleaseShaderResources _ _).
  cbn [self ret calls fst].
  repeat split; try apply nonzero_test. apply zero_test.
Qed.

(** A stored id of 7 is zero after the link. *)
Lemma LinkProgram_overwrites_and_releases_witness :
  shader_program_id_ fixtures.built_instance = 7 /\
  shader_program_id_ (self (LinkProgram (Some "") fixtures.built_instance))
    = 0.
Proof.
  split; [reflexivity|].
  destruct (LinkProgram_overwrites_and_releases (Some "")
              fixtures.built_instance) as (_ & _ & Hfail & _).
  apply Hfail. reflexivity.
Defined.

(** ** Further properties of shader_program.cc *)

Import history.

(** X1: [LoadShaderFromFile] returns true exactly when the path opens and
    the sink is not null; then the sink holds the content of the file, and
    otherwise the sink is as it was (a null sink stays null, a string keeps
    its value, even when the file opens). *)
Theorem LoadShaderFromFile_succeeds_iff (fs : FileSystem) (filepath : string)
    (loaded_file : option string) :
  ((LoadShaderFromFile fs filepath loaded_file).1 = true <->
     is_Some (fs !! filepath) /\ is_Some loaded_file) /\
  (LoadShaderFromFile fs filepath loaded_file).2 =
    (if (LoadShaderFromFile fs filepath loaded_file).1
     then fs !! filepath
     else loaded_file).
Proof.
  unfold LoadShaderFromFile.
  destruct (fs !! filepath) as [content|], loaded_file as [old|]; simpl;
    (split; [|reflexivity]); split;
    try discriminate; try (intros [[? H] [? H']]; discriminate);
    intros _; split; eexists; reflexivity.
Qed.

Lemma step_vertex_shader_src_ (op : Op) (this : ShaderProgram) :
  vertex_shader_src_ (step op this) =
    default (vertex_shader_src_ this) (vertex_text op).
Proof.
  destruct op as [src|src|fs path|fs path|l|l|l|l| |]; simpl; try reflexivity.
  - unfold LoadVertexShaderFromFile.
    rewrite LoadShaderFromFile_sink. by destruct (fs !! path).
  - unfold LoadFragmentShaderFromFile.
    rewrite LoadShaderFromFile_sink. by destruct (fs !! path).
  - unfold Create. by destruct (created_ this).
Qed.

Lemma step_fragment_shader_src_ (op : Op) (this : ShaderProgram) :
  fragment_shader_src_ (step op this) =
    default (fragment_shader_src_ this) (fragment_text op).
Proof.
  destruct op as [src|src|fs path|fs path|l|l|l|l| |]; simpl; try reflexivity.
  - unfold LoadVertexShaderFromFile.
    rewrite LoadShaderFromFile_sink. by destruct (fs !! path).
  - unfold LoadFragmentShaderFromFile.
    rewrite LoadShaderFromFile_sink. by destruct (fs !! path).
  - unfold Create. by destruct (created_ this).
Qed.

Lemma run_snoc (ops : list Op) (op : Op) (this : ShaderProgram) :
  run (ops ++ [op])%list this = step op (run ops this).
Proof. unfold run. by rewrite foldl_snoc. Qed.

(** The last element of the texts stored by a sequence that ends in [op]. *)
Lemma last_omap_snoc (f : Op -> option string) (ops : list Op) (op : Op) :
  last (omap f (ops ++ [op])%list) =
    match f op with
    | Some text => Some text
    | None => last (omap f ops)
    end.
Proof.
  rewrite omap_app. simpl. destruct (f op) as [text|].
  - by rewrite last_snoc.
  - by rewrite app_nil_r.
Qed.

(** X2: after any sequence of calls, the vertex source is the text stored by
    the last vertex load that succeeded (the argument of a load from a
    string, the content of the file for a load from a path that opens), and
    the source the instance started with when there is none; the same holds
    of the fragment source. Failed loads, builds, links and [Create] in
    between do not count. *)
Theorem run_sources (ops : list Op) (this : ShaderProgram) :
  vertex_shader_src_ (run ops this) =
    default (vertex_shader_src_ this) (last (omap vertex_text ops)) /\
  fragment_shader_src_ (run ops this) =
    default (fragment_shader_src_ this) (last (omap fragment_text ops)).
Proof.
  induction ops as [|op ops [IHv IHf]] using rev_ind; [by split|].
  rewrite run_snoc, step_vertex_shader_src_, step_fragment_shader_src_.
  rewrite !last_omap_snoc, IHv, IHf.
  by destruct (vertex_text op), (fragment_text op).
Qed.

Lemma step_handles (op : Op) (this : ShaderProgram) :
  shader_program_id_ (step op this) =
    (if is_LinkProgram op then 0 else shader_program_id_ this) /\
  vertex_shader_ (step op this) =
    (if is_BuildVertexShader op then 0 else vertex_shader_ this) /\
  fragment_shader_ (step op this) =
    (if is_BuildFragmentShader op then 0 else fragment_shader_ this).
Proof.
  destruct op as [src|src|fs path|fs path|l|l|l|l| |]; simpl;
    try (repeat split; fail).
  - unfold LoadVertexShaderFromFile.
    rewrite LoadShaderFromFile_sink. by destruct (fs !! path).
  - unfold LoadFragmentShaderFromFile.
    rewrite LoadShaderFromFile_sink. by destruct (fs !! path).
  - unfold Create. by destruct (created_ this).
Qed.

(** X3: no sequence of calls produces a nonzero handle. After any sequence,
    the program id is zero when the sequence contains a [LinkProgram] and
    the id the instance started with otherwise; the vertex (resp. fragment)
    stage handle is zero when the sequence contains a [BuildVertexShader]
    (resp. [BuildFragmentShader]) and unchanged otherwise. *)
Theorem run_handles (ops : list Op) (this : ShaderProgram) :
  shader_program_id_ (run ops this) =
    (if existsb is_LinkProgram ops then 0 else shader_program_id_ this) /\
  vertex_shader_ (run ops this) =
    (if existsb is_BuildVertexShader ops then 0 else vertex_shader_ this) /\
  fragment_shader_ (run ops this) =
    (if existsb is_BuildFragmentShader ops
     then 0 else fragment_shader_ this).
Proof.
  revert this. induction ops as [|op ops IH]; intros this; [by repeat split|].
  change (run (op :: ops) this) with (run ops (step op this)).
  destruct (IH (step op this)) as (-> & -> & ->).
  destruct (step_handles op this) as (-> & -> & ->).
  simpl.
  by destruct (is_LinkProgram op), (is_BuildVertexShader op),
    (is_BuildFragmentShader op), (existsb is_LinkProgram ops),
    (existsb is_BuildVertexShader ops), (existsb is_BuildFragmentShader ops).
Qed.

(** X4: whatever calls were made on an instance before (loads, builds,
    links, earlier calls of [Create]), [Create] returns the value [created_]
    had at the start, the same value as a call of [Create] made at the
    start, and it leaves the caller's log as it was: no sequence of calls
    turns a failing [Create] into a succeeding one, or the reverse. *)
Theorem Create_after_run (ops : list Op) (this : ShaderProgram)
    (error_info_log earlier_log : option string) :
  ret (Create error_info_log (run ops this)) = created_ this /\
  ret (Create error_info_log (run ops this)) =
    ret (Create earlier_log this) /\
  log (Create error_info_log (run ops this)) = error_info_log /\
  self (Create error_info_log (run ops this)) = run ops this.
Proof.
  unfold Create. rewrite run_created_.
  by destruct (created_ this).
Qed.

(** X5: the two builds and the link fail silently on every instance and
    every log pointer: each returns false, stores the zero handle, and
    leaves the pointee of the log pointer as it was, so no diagnostic ever
    reaches the caller. *)
Theorem Build_and_Link_fail_silently (info_log : option string)
    (this : ShaderProgram) :
  (ret (BuildVertexShader info_log this) = false /\
   log (BuildVertexShader info_log this) = info_log /\
   self (BuildVertexShader info_log this) = set_vertex_shader_ 0 this) /\
  (ret (BuildFragmentShader info_log this) = false /\
   log (BuildFragmentShader info_log this) = info_log /\
   self (BuildFragmentShader info_log this) = set_fragment_shader_ 0 this) /\
  (ret (LinkProgram info_log this) = false /\
   log (LinkProgram info_log this) = info_log /\
   self (LinkProgram info_log this) = set_shader_program_id_ 0 this).
Proof. repeat split. Qed.

(** X6: every call is idempotent on the instance: making the same call
    twice in a row (the same text, the same path against the same files, the
    same log pointer) leaves the instance as making it once. *)
Theorem step_idempotent (op : Op) (this : ShaderProgram) :
  step op (step op this) = step op this.
Proof.
  destruct op as [src|src|fs path|fs path|l|l|l|l| |]; simpl; try reflexivity.
  - unfold LoadVertexShaderFromFile.
    rewrite !LoadShaderFromFile_sink. by destruct (fs !! path), this.
  - unfold LoadFragmentShaderFromFile.
    rewrite !LoadShaderFromFile_sink. by destruct (fs !! path), this.
  - unfold Create. by destruct (created_ this) eqn:E; simpl; rewrite E.
Qed.

(** X7: a load of the vertex source and a load of the fragment source
    commute, from strings and from files, whether the files open or not:
    the instance after both does not depend on their order. *)
Theorem Load_vertex_fragment_commute (v f : string) (fs : FileSystem)
    (vpath fpath : string) (this : ShaderProgram) :
  (LoadVertexShaderFromString v (LoadFragmentShaderFromString f this).2).2 =
    (LoadFragmentShaderFromString f (LoadVertexShaderFromString v this).2).2 /\
  (LoadVertexShaderFromFile fs vpath
     (LoadFragmentShaderFromFile fs fpath this).2).2 =
    (LoadFragmentShaderFromFile fs fpath
       (LoadVertexShaderFromFile fs vpath this).2).2 /\
  (LoadVertexShaderFromString v
     (LoadFragmentShaderFromFile fs fpath this).2).2 =
    (LoadFragmentShaderFromFile fs fpath
       (LoadVertexShaderFromString v this).2).2 /\
  (LoadVertexShaderFromFile fs vpath
     (LoadFragmentShaderFromString f this).2).2 =
    (LoadFragmentShaderFromString f
       (LoadVertexShaderFromFile fs vpath this).2).2.
Proof.
  unfold LoadVertexShaderFromFile, LoadFragmentShaderFromFile.
  rewrite !LoadShaderFromFile_sink.
  by destruct (fs !! vpath), (fs !! fpath).
Qed.

(** ** Properties of draw_triangle.cc *)

Import draw_triangle.

Lemma KeyCallback_spec (should_close : bool) (e : KeyEvent) :
  KeyCallback should_close e = should_close || is_escape_press e.
Proof.
  unfold KeyCallback, is_escape_press.
  destruct ((key e =? GLFW_KEY_ESCAPE)%Z && (action e =? GLFW_PRESS)%Z),
    should_close; reflexivity.
Qed.

(** X8: after GLFW delivered any sequence of key events to [KeyCallback],
    the window is flagged to close exactly when it was flagged before or one
    of the events was a press of the escape key; the callback never clears
    the flag, and the scancode and the modifiers play no part. *)
Theorem KeyCallback_closes_on_escape (events : list KeyEvent)
    (should_close : bool) :
  deliver events should_close =
    should_close || existsb is_escape_press events.
Proof.
  unfold deliver. revert should_close.
  induction events as [|e events IH]; intros should_close; simpl.
  - by rewrite orb_false_r.
  - by rewrite IH, KeyCallback_spec, orb_assoc.
Qed.

(** X9: if the constructor leaves the program id at zero, [main] never
    reaches its render loop: for every outcome of the GLFW and GLEW
    initialisation it returns -1, since neither the loads nor [Create]
    change the id that [shader_program_id()] reads. *)
Theorem main_returns_without_program (p : Platform)
    (constructed : ShaderProgram) :
  shader_program_id_ constructed = 0 ->
  reached (main p constructed) = Returned (-1).
Proof.
  intros Hid. unfold main.
  destruct (glfwInit_ok p), (window_created p), (glewInit_ok p); simpl;
    try reflexivity.
  unfold Create, shader_program_id. simpl.
  destruct (created_ constructed); simpl; by rewrite Hid.
Qed.

(** The theorem at the instance of the spec's constructor, with every
    library initialised. *)
Lemma main_returns_without_program_witness :
  reached (main (mkPlatform true true true) ShaderProgram_new)
    = Returned (-1).
Proof.
  apply (main_returns_without_program (mkPlatform true true true)
           ShaderProgram_new).
  reflexivity.
Defined.

(** X10: when GLFW and GLEW initialise and the constructor leaves
    [created_] false and the program id zero, [main] writes the line
    "ERROR: " with an empty diagnostic to [std::cout], since [Create] wrote
    nothing to the log, and returns -1 without calling [glfwTerminate()],
    which the returns taken when the window or GLEW fails do call. *)
Theorem main_shader_failure_path (p : Platform)
    (constructed : ShaderProgram) :
  glfwInit_ok p = true ->
  created_ constructed = false ->
  shader_program_id_ constructed = 0 ->
  (window_created p && glewInit_ok p = true ->
     main p constructed = mkMainRun (Returned (-1)) "ERROR: 
" false) /\
  (window_created p && glewInit_ok p = false ->
     main p constructed = mkMainRun (Returned (-1)) "" true).
Proof.
  intros Hinit Hcreated Hid. unfold main. rewrite Hinit.
  destruct (window_created p), (glewInit_ok p); simpl;
    (split; intros H; try discriminate H; try reflexivity).
  unfold Create, shader_program_id. simpl.
  by rewrite Hcreated; simpl; rewrite Hid.
Qed.

(** Both paths at the instance of the spec's constructor. *)
Lemma main_shader_failure_path_witness :
  main (mkPlatform true true true) ShaderProgram_new =
    mkMainRun (Returned (-1)) "ERROR: 
" false /\
  main (mkPlatform true false true) ShaderProgram_new =
    mkMainRun (Returned (-1)) "" true.
Proof.
  split.
  - apply (main_shader_failure_path (mkPlatform true true true)
             ShaderProgram_new); reflexivity.
  - apply (main_shader_failure_path (mkPlatform true false true)
             ShaderProgram_new); reflexivity.
Defined.
